(** * UISP REST API client ([src/uisp_api/uisp.py]): a shallow embedding

    The client object [UispApi] holds five configuration attributes and
    offers five read operations.  Every operation goes through one of two
    private helpers, [_call_api_crm] and [_call_api_nms], which build a URL,
    attach the authentication headers and call [requests.get].

    The embedding threads an explicit world (the client object and the list
    of HTTP requests put on the wire so far) through a small state and
    exception monad.  The remote server is a variable of the development:
    a function from the history of requests and the current request to
    either a transport failure or a response.

    The calls to the logger are left out: they write to the log and touch
    neither the client object nor the wire. *)

From Stdlib Require Import String Ascii List ZArith Bool Lia.
Import ListNotations.
Local Open Scope string_scope.
Local Set Warnings "-register-all".

(** ** Python values *)

(** Python [str] values are represented by their UTF-8 bytes. *)
Definition str := string.

(** A Python [dict] keeps its items in insertion order and has at most one
    item per key: an association list, read with [dict_get] and written
    with [dict_set]. *)
Definition pydict (V : Type) := list (str * V).

(** The values that travel through the client: decoded JSON documents,
    keyword-argument values, and the raw stream of a response. *)
Inductive pyval : Type :=
| PNone
| PBool (b : bool)
| PInt (n : Z)
| PFloat (bits : Z)
| PStr (s : str)
| PList (items : list pyval)
| PDict (items : list (str * pyval))
| PRaw (stream : str).

(** Exceptions.  [APIException] and [RuntimeError] are raised by the source
    with a message; the others come from the interpreter and the libraries. *)
Inductive exn : Type :=
| APIException (msg : str)
| RuntimeError (msg : str)
| KeyError (key : str)
| TypeError
| IndexError
| ValueError
| JSONDecodeError
| RequestException (what : str).

Inductive outcome (A : Type) : Type :=
| Ok (a : A)
| Raise (e : exn).
Arguments Ok {A} a.
Arguments Raise {A} e.

(** ** Dictionaries *)

Fixpoint dict_get {V} (d : pydict V) (k : str) : option V :=
  match d with
  | [] => None
  | (k', v) :: d' => if String.eqb k' k then Some v else dict_get d' k
  end.

(** [d[k] = v]: an existing key keeps its position, a new key goes last. *)
Fixpoint dict_set {V} (d : pydict V) (k : str) (v : V) : pydict V :=
  match d with
  | [] => [(k, v)]
  | (k', v') :: d' =>
      if String.eqb k' k then (k', v) :: d' else (k', v') :: dict_set d' k v
  end.

Definition dict_keys {V} (d : pydict V) : list str := map fst d.

(** The invariant of a Python dict: no key occurs twice. *)
Definition dict_wf {V} (d : pydict V) : Prop := NoDup (dict_keys d).

(** [v[k]] for a string subscript [k]: only a dict can be subscripted by a
    string; a missing key is a [KeyError], anything else a [TypeError]. *)
Definition getitem (v : pyval) (k : str) : outcome pyval :=
  match v with
  | PDict d => match dict_get d k with
               | Some x => Ok x
               | None => Raise (KeyError k)
               end
  | _ => Raise TypeError
  end.

(** The field [k] of a decoded JSON document, when it has one. *)
Definition json_field (v : pyval) (k : str) : option pyval :=
  match v with
  | PDict d => dict_get d k
  | _ => None
  end.

(** [x in xs] on a list of strings. *)
Fixpoint str_in (x : str) (xs : list str) : bool :=
  match xs with
  | [] => false
  | y :: ys => String.eqb x y || str_in x ys
  end.

(** ** [str.format] with positional fields *)

Definition is_digit (c : ascii) : bool :=
  (48 <=? nat_of_ascii c)%nat && (nat_of_ascii c <=? 57)%nat.

Definition digit_val (c : ascii) : nat := nat_of_ascii c - 48.

(** Where the scanner is: in literal text, just after an opening brace, or
    inside a field whose index read so far is [n]. *)
Inductive fmt_state : Type :=
| FText
| FOpen
| FIndex (n : nat).

Definition emit (c : ascii) (r : outcome str) : outcome str :=
  match r with
  | Ok s => Ok (String c s)
  | Raise e => Raise e
  end.

Definition splice (a : str) (r : outcome str) : outcome str :=
  match r with
  | Ok s => Ok (a ++ s)
  | Raise e => Raise e
  end.

(** [tpl.format( *args )] for templates made of literal text, the escapes
    [{{] and [}}], and fields [{N}] with a decimal index.  A field index
    past the arguments is an [IndexError]; a malformed template (and the
    field forms not covered here) is a [ValueError]. *)
Fixpoint format_from (args : list str) (st : fmt_state) (tpl : str)
  : outcome str :=
  match tpl with
  | EmptyString =>
      match st with
      | FText => Ok ""
      | _ => Raise ValueError
      end
  | String c rest =>
      match st with
      | FText =>
          if Ascii.eqb c "{" then
            match rest with
            | String "{" rest' => emit "{" (format_from args FText rest')
            | _ => format_from args FOpen rest
            end
          else if Ascii.eqb c "}" then
            match rest with
            | String "}" rest' => emit "}" (format_from args FText rest')
            | _ => Raise ValueError
            end
          else emit c (format_from args FText rest)
      | FOpen =>
          if is_digit c then format_from args (FIndex (digit_val c)) rest
          else Raise ValueError
      | FIndex n =>
          if is_digit c then
            format_from args (FIndex (10 * n + digit_val c)) rest
          else if Ascii.eqb c "}" then
            match nth_error args n with
            | Some a => splice a (format_from args FText rest)
            | None => Raise IndexError
            end
          else Raise ValueError
      end
  end.

Definition format (tpl : str) (args : list str) : outcome str :=
  format_from args FText tpl.

(** ** [urllib.parse] *)

Module urllib_parse.

(** Modelled from the Python standard library ([urllib.parse]), which the
    client imports.  A [str] is quoted through its UTF-8 bytes. *)

Definition is_upper (c : ascii) : bool :=
  (65 <=? nat_of_ascii c)%nat && (nat_of_ascii c <=? 90)%nat.

Definition is_lower (c : ascii) : bool :=
  (97 <=? nat_of_ascii c)%nat && (nat_of_ascii c <=? 122)%nat.

(** [_ALWAYS_SAFE]: letters, digits and the four marks [_.-~]. *)
Definition always_safe (c : ascii) : bool :=
  is_upper c || is_lower c || is_digit c
  || Ascii.eqb c "_" || Ascii.eqb c "." || Ascii.eqb c "-" || Ascii.eqb c "~".

Fixpoint mem_ascii (c : ascii) (s : str) : bool :=
  match s with
  | EmptyString => false
  | String d s' => Ascii.eqb c d || mem_ascii c s'
  end.

Definition hex_digit (n : nat) : ascii :=
  if (n <? 10)%nat then ascii_of_nat (48 + n) else ascii_of_nat (55 + n).

(** The quoter of one byte: the byte itself when it is safe, and
    ['%{:02X}'.format(b)] otherwise. *)
Definition quote_byte (safe : str) (c : ascii) : str :=
  if always_safe c || mem_ascii c safe then String c ""
  else String "%" (String (hex_digit (nat_of_ascii c / 16))
                     (String (hex_digit (nat_of_ascii c mod 16)) "")).

Fixpoint all_safe (safe : str) (bs : str) : bool :=
  match bs with
  | EmptyString => true
  | String c bs' => (always_safe c || mem_ascii c safe) && all_safe safe bs'
  end.

Fixpoint quote_each (safe : str) (bs : str) : str :=
  match bs with
  | EmptyString => ""
  | String c bs' => quote_byte safe c ++ quote_each safe bs'
  end.

(** [quote_from_bytes(bs, safe)]: the empty input and the input made of
    safe bytes only are returned at once; otherwise each byte goes
    through the quoter and the pieces are joined. *)
Definition quote_from_bytes (bs : str) (safe : str) : str :=
  match bs with
  | EmptyString => ""
  | _ => if all_safe safe bs then bs else quote_each safe bs
  end.

(** [quote(string, safe)] on a [str]. *)
Definition quote (s : str) (safe : str) : str :=
  match s with
  | EmptyString => s
  | _ => quote_from_bytes s safe
  end.

(** [s.replace(a, b)] for one-character [a] and [b]. *)
Fixpoint replace_char (a b : ascii) (s : str) : str :=
  match s with
  | EmptyString => ""
  | String c s' => String (if Ascii.eqb c a then b else c) (replace_char a b s')
  end.

(** [quote_plus(string)] with the default [safe='']: without a space the
    string is quoted as it is; with one, the space is kept safe while
    quoting and then replaced by a plus sign. *)
Definition quote_plus (s : str) : str :=
  if negb (mem_ascii " " s) then quote s ""
  else replace_char " " "+" (quote s ("" ++ " ")).

(** The encoding of HTML form values, byte by byte, as the library's
    documentation words it: a space becomes a plus sign, an unreserved
    byte stays, every other byte becomes a percent sign and two upper-case
    hexadecimal digits. *)
Definition form_encode_byte (c : ascii) : str :=
  if Ascii.eqb c " " then "+"
  else if always_safe c then String c ""
  else String "%" (String (hex_digit (nat_of_ascii c / 16))
                     (String (hex_digit (nat_of_ascii c mod 16)) "")).

Fixpoint form_encode (s : str) : str :=
  match s with
  | EmptyString => ""
  | String c s' => form_encode_byte c ++ form_encode s'
  end.

(** [all(p(c) for c in s)] *)
Fixpoint str_forall (p : ascii -> bool) (s : str) : bool :=
  match s with
  | EmptyString => true
  | String c s' => p c && str_forall p s'
  end.

(** The bytes a quoted string is made of: the unreserved ones, the percent
    sign and the plus sign. *)
Definition url_char (c : ascii) : bool :=
  always_safe c || Ascii.eqb c "%" || Ascii.eqb c "+".

Definition hex_val (c : ascii) : option nat :=
  if is_digit c then Some (nat_of_ascii c - 48)
  else if (65 <=? nat_of_ascii c)%nat && (nat_of_ascii c <=? 70)%nat
       then Some (nat_of_ascii c - 55)
       else None.

(** Reading a form encoding back: a plus sign is a space, a percent sign
    with two hexadecimal digits is the byte they spell, any other byte is
    itself.  Used to tell quoted strings apart. *)
Fixpoint form_decode (s : str) : str :=
  match s with
  | EmptyString => ""
  | String c rest =>
      if Ascii.eqb c "+" then String " " (form_decode rest)
      else if Ascii.eqb c "%" then
        match rest with
        | String h (String l rest') =>
            match hex_val h, hex_val l with
            | Some a, Some b =>
                String (ascii_of_nat (16 * a + b)) (form_decode rest')
            | _, _ => String c (form_decode rest)
            end
        | _ => String c (form_decode rest)
        end
      else String c (form_decode rest)
  end.

End urllib_parse.

(** ** HTTP requests and responses *)

(** What [requests.get(url, headers=..., params=...)] puts on the wire.
    [req_params] is [None] when the caller passes no parameters. *)
Record request : Type := mkRequest {
  req_method : str;
  req_url : str;
  req_headers : pydict str;
  req_params : option (pydict pyval)
}.

(** A [requests.Response]: [json_body] is the result of [.json()], [None]
    when the body is not a JSON document. *)
Record response : Type := mkResponse {
  status_code : Z;
  text : str;
  json_body : option pyval;
  raw : str
}.

Inductive reply : Type :=
| Failed (e : exn)
| Replied (r : response).

(** The remote side: given the requests seen so far and the current one,
    the transport fails or a response comes back. *)
Definition network := list request -> request -> reply.

(** ** The client object and the world *)

Record UispApi : Type := mkUispApi {
  _secure : bool;
  _server : str;
  _api_version_crm : str;
  _api_version_nms : str;
  _app_key : str
}.

Record world : Type := mkWorld {
  client : UispApi;
  wire : list request
}.

(** ** The state and exception monad *)

Definition M (A : Type) : Type := world -> outcome A * world.

Definition ret {A} (a : A) : M A := fun w => (Ok a, w).

Definition raise {A} (e : exn) : M A := fun w => (Raise e, w).

Definition bind {A B} (m : M A) (k : A -> M B) : M B :=
  fun w =>
    match m w with
    | (Ok a, w') => k a w'
    | (Raise e, w') => (Raise e, w')
    end.

Definition lift {A} (r : outcome A) : M A := fun w => (r, w).

(** Reading an attribute of [self]. *)
Definition attr {A} (f : UispApi -> A) : M A := fun w => (Ok (f (client w)), w).

Declare Scope py_scope.
Delimit Scope py_scope with py.
Notation "x <- m ;; k" := (bind m (fun x => k))
  (at level 61, m at next level, right associativity) : py_scope.
Local Open Scope py_scope.

(** [UispApi.__init__]: the keyword arguments left out take their defaults. *)
Definition __init__ (uisp_server app_key : str)
    (crm_version nms_version : option str) (secure : option bool) : UispApi :=
  {| _secure := match secure with Some b => b | None => true end;
     _server := uisp_server;
     _api_version_crm :=
       match crm_version with Some v => v | None => "v1.0" end;
     _api_version_nms :=
       match nms_version with Some v => v | None => "v2.1" end;
     _app_key := app_key |}.

Definition new_world (c : UispApi) : world := {| client := c; wire := [] |}.

(** ** Sample servers and inputs *)

Definition always (r : response) : network := fun _ _ => Replied r.

Definition unreachable : network :=
  fun _ _ => Failed (RequestException "ConnectionError").

(** A server that knows one URL only. *)
Definition only_at (url : str) (r : response) : network :=
  fun _ rq =>
    if String.eqb (req_url rq) url then Replied r
    else Failed (RequestException "ConnectionError").

Definition json_reply (code : Z) (body : str) (v : pyval) : response :=
  {| status_code := code; text := body; json_body := Some v; raw := body |}.

(** A reply whose body is not a JSON document. *)
Definition html_reply (code : Z) (body : str) : response :=
  {| status_code := code; text := body; json_body := None; raw := body |}.

Definition version_doc : pyval := PDict [("version", PStr "1.4.8")].

Definition device_doc : pyval :=
  PList [PDict [("id", PStr "a1"); ("role", PStr "ap")]].

Definition demo : UispApi := __init__ "uisp.example.net" "k3y" None None None.

Definition demo_plain : UispApi :=
  __init__ "10.0.0.2:8080" "k3y" (Some "v2.0") (Some "v2.2") (Some false).

(** ** The two endpoint families, in the words of the interface description *)

Definition protocol_of (secure : bool) : str :=
  if secure then "https" else "http".

(** [{protocol}://{host}/crm/api/{crmVersion}/{path}] *)
Definition crm_url (c : UispApi) (path : str) : str :=
  protocol_of (_secure c) ++ "://" ++ _server c ++ "/crm/api/"
    ++ _api_version_crm c ++ "/" ++ path.

(** [{protocol}://{host}/nms/api/{nmsVersion}/{path}] *)
Definition nms_url (c : UispApi) (path : str) : str :=
  protocol_of (_secure c) ++ "://" ++ _server c ++ "/nms/api/"
    ++ _api_version_nms c ++ "/" ++ path.

Definition crm_request (c : UispApi) (path : str)
    (params : option (pydict pyval)) : request :=
  {| req_method := "GET";
     req_url := crm_url c path;
     req_headers := [("Content-Type", "application/json");
                     ("X-Auth-App-Key", _app_key c)];
     req_params := params |}.

Definition nms_request (c : UispApi) (path : str)
    (params : option (pydict pyval)) : request :=
  {| req_method := "GET";
     req_url := nms_url c path;
     req_headers := [("accept", "application/json");
                     ("x-auth-token", _app_key c)];
     req_params := params |}.

(** The world after one more request went out. *)
Definition sent (w : world) (rq : request) : world :=
  {| client := client w; wire := (wire w ++ [rq])%list |}.

(** ** The client's methods *)

Section Client.

Variable net : network.

(** [requests.get]: the request goes on the wire, then the transport
    either raises or hands back the response. *)
Definition requests_get (url : str) (headers : pydict str)
    (params : option (pydict pyval)) : M response :=
  fun w =>
    let rq := {| req_method := "GET"; req_url := url;
                 req_headers := headers; req_params := params |} in
    let w' := {| client := client w; wire := (wire w ++ [rq])%list |} in
    match net (wire w) rq with
    | Failed e => (Raise e, w')
    | Replied r => (Ok r, w')
    end.

(** [Response.json()] *)
Definition response_json (r : response) : M pyval :=
  match json_body r with
  | Some v => ret v
  | None => raise JSONDecodeError
  end.

Definition _build_url_crm (sub_path : str) : M str :=
  secure <- attr _secure ;;
  let protocol := protocol_of secure in
  server <- attr _server ;;
  version <- attr _api_version_crm ;;
  lift (format "{0}://{1}/crm/api/{2}/{3}"
          [protocol; server; version; sub_path]).

Definition _call_api_crm (call_method api_call : str)
    (parameters : option (pydict pyval)) (return_type : str) : M pyval :=
  if negb (str_in call_method ["delete"; "get"; "patch"; "post"]) then
    raise (APIException ("Unknown call method: " ++ call_method))
  else
    api_url <- _build_url_crm api_call ;;
    app_key <- attr _app_key ;;
    let headers := [("Content-Type", "application/json");
                    ("X-Auth-App-Key", app_key)] in
    if String.eqb call_method "get" then
      result <- requests_get api_url headers parameters ;;
      if String.eqb return_type "json" then response_json result
      else ret PNone
    else
      raise (APIException "Unimplemented call method: {call_method}").

Definition _build_url_nms (sub_path : str) : M str :=
  secure <- attr _secure ;;
  let protocol := protocol_of secure in
  server <- attr _server ;;
  version <- attr _api_version_nms ;;
  url <- lift (format "{0}://{1}/nms/api/{2}/{3}"
                 [protocol; server; version; sub_path]) ;;
  ret url.

Definition _call_api_nms (call_method api_call : str)
    (parameters : option (pydict pyval)) (return_type : str) : M pyval :=
  api_url <- _build_url_nms api_call ;;
  app_key <- attr _app_key ;;
  let headers := [("accept", "application/json");
                  ("x-auth-token", app_key)] in
  req <- requests_get api_url headers parameters ;;
  if Z.eqb (status_code req) 200 then
    if String.eqb return_type "json" then response_json req
    else ret (PRaw (raw req))
  else
    raise (RuntimeError "Got error '{r.status_code}' while executing request").

Definition version_get : M pyval :=
  result <- _call_api_crm "get" "version" None "json" ;;
  lift (getitem result "version").

Definition device_list (kwargs : pydict pyval) : M pyval :=
  let params :=
    fold_left (fun params kv => dict_set params (fst kv) (snd kv))
              kwargs [] in
  result <- _call_api_nms "get" "devices" (Some params) "json" ;;
  ret result.

Definition get_device_by_mac (mac : str) : M pyval :=
  result <- _call_api_nms "get"
              ("devices/mac/" ++ urllib_parse.quote_plus mac) None "json" ;;
  ret result.

Definition get_device_creds (device_id : str) : M pyval :=
  result <- _call_api_nms "get"
              ("vault/" ++ device_id ++ "/credentials") None "json" ;;
  ret result.

Definition get_gateways : M pyval :=
  result <- _call_api_nms "get" "gateways" None "json" ;;
  ret result.

(** *** Sequences of public calls *)

Inductive call : Type :=
| VersionGet
| DeviceList (kwargs : pydict pyval)
| GetDeviceByMac (mac : str)
| GetDeviceCreds (device_id : str)
| GetGateways.

Definition perform (c : call) : M pyval :=
  match c with
  | VersionGet => version_get
  | DeviceList kwargs => device_list kwargs
  | GetDeviceByMac mac => get_device_by_mac mac
  | GetDeviceCreds device_id => get_device_creds device_id
  | GetGateways => get_gateways
  end.

(** The request a public call puts on the wire. *)
Definition request_of (c : UispApi) (k : call) : request :=
  match k with
  | VersionGet => crm_request c "version" None
  | DeviceList kwargs =>
      nms_request c "devices"
        (Some (fold_left (fun params kv => dict_set params (fst kv) (snd kv))
                         kwargs []))
  | GetDeviceByMac mac =>
      nms_request c ("devices/mac/" ++ urllib_parse.quote_plus mac) None
  | GetDeviceCreds device_id =>
      nms_request c ("vault/" ++ device_id ++ "/credentials") None
  | GetGateways => nms_request c "gateways" None
  end.

Definition is_nms (k : call) : bool :=
  match k with
  | VersionGet => false
  | _ => true
  end.

(** The caller makes the calls one after the other, whatever each one
    returns or raises. *)
Fixpoint perform_all (cs : list call) (w : world) : world :=
  match cs with
  | [] => w
  | c :: cs' => perform_all cs' (snd (perform c w))
  end.

(** The outcome of the NMS helper once the reply is known. *)
Definition nms_outcome (return_type : str) (r : response) : outcome pyval :=
  if Z.eqb (status_code r) 200 then
    if String.eqb return_type "json" then
      match json_body r with
      | Some v => Ok v
      | None => Raise JSONDecodeError
      end
    else Ok (PRaw (raw r))
  else Raise (RuntimeError "Got error '{r.status_code}' while executing request").

(** The outcome of the CRM helper on a GET, once the reply is known. *)
Definition crm_outcome (return_type : str) (r : response) : outcome pyval :=
  if String.eqb return_type "json" then
    match json_body r with
    | Some v => Ok v
    | None => Raise JSONDecodeError
    end
  else Ok PNone.

(** The outcome of a public call once the reply is known. *)
Definition call_outcome (k : call) (r : response) : outcome pyval :=
  match k with
  | VersionGet =>
      match json_body r with
      | Some body => getitem body "version"
      | None => Raise JSONDecodeError
      end
  | _ => nms_outcome "json" r
  end.

(** ** Strings *)

Lemma app_empty_r (s : str) : s ++ "" = s.
Proof. induction s as [|c s IH]; cbn; [reflexivity | now rewrite IH]. Qed.

Lemma app_assoc_str (a b c : str) : (a ++ b) ++ c = a ++ b ++ c.
Proof. induction a as [|x a IH]; cbn; [reflexivity | now rewrite IH]. Qed.

(** ** The two URL templates *)

Lemma format_crm_template (protocol server version sub_path : str) :
  format "{0}://{1}/crm/api/{2}/{3}" [protocol; server; version; sub_path]
  = Ok (protocol ++ "://" ++ server ++ "/crm/api/" ++ version ++ "/"
          ++ sub_path).
Proof.
  transitivity (Ok (protocol ++ "://" ++ server ++ "/crm/api/" ++ version
                      ++ "/" ++ sub_path ++ "")).
  - lazy. reflexivity.
  - now rewrite app_empty_r.
Qed.

Lemma format_nms_template (protocol server version sub_path : str) :
  format "{0}://{1}/nms/api/{2}/{3}" [protocol; server; version; sub_path]
  = Ok (protocol ++ "://" ++ server ++ "/nms/api/" ++ version ++ "/"
          ++ sub_path).
Proof.
  transitivity (Ok (protocol ++ "://" ++ server ++ "/nms/api/" ++ version
                      ++ "/" ++ sub_path ++ "")).
  - lazy. reflexivity.
  - now rewrite app_empty_r.
Qed.

(** ** Running the helpers *)

Lemma build_url_crm_run (sub_path : str) (w : world) :
  _build_url_crm sub_path w = (Ok (crm_url (client w) sub_path), w).
Proof.
  unfold _build_url_crm, bind, attr, lift.
  now rewrite format_crm_template.
Qed.

Lemma build_url_nms_run (sub_path : str) (w : world) :
  _build_url_nms sub_path w = (Ok (nms_url (client w) sub_path), w).
Proof.
  unfold _build_url_nms, bind, attr, lift, ret.
  now rewrite format_nms_template.
Qed.

Lemma call_api_nms_run (call_method api_call : str)
    (parameters : option (pydict pyval)) (return_type : str) (w : world) :
  _call_api_nms call_method api_call parameters return_type w =
  (match net (wire w) (nms_request (client w) api_call parameters) with
   | Failed e => Raise e
   | Replied r => nms_outcome return_type r
   end,
   sent w (nms_request (client w) api_call parameters)).
Proof.
  unfold _call_api_nms, bind. rewrite build_url_nms_run.
  unfold attr, requests_get, nms_outcome, sent, nms_request. cbv beta iota zeta.
  cbn [client wire].
  destruct (net _ _) as [e|r]; [reflexivity|].
  destruct (Z.eqb (status_code r) 200); [|reflexivity].
  destruct (String.eqb return_type "json"); [|reflexivity].
  unfold response_json. destruct (json_body r); reflexivity.
Qed.

Lemma call_api_crm_get_run (api_call : str)
    (parameters : option (pydict pyval)) (return_type : str) (w : world) :
  _call_api_crm "get" api_call parameters return_type w =
  (match net (wire w) (crm_request (client w) api_call parameters) with
   | Failed e => Raise e
   | Replied r => crm_outcome return_type r
   end,
   sent w (crm_request (client w) api_call parameters)).
Proof.
  unfold _call_api_crm.
  change (negb (str_in "get" ["delete"; "get"; "patch"; "post"])) with false.
  change (String.eqb "get" "get") with true. cbv iota.
  unfold bind. rewrite build_url_crm_run.
  unfold attr, requests_get, crm_outcome, sent, crm_request. cbv beta iota zeta.
  cbn [client wire].
  destruct (net _ _) as [e|r]; [reflexivity|].
  destruct (String.eqb return_type "json"); [|reflexivity].
  unfold response_json. destruct (json_body r); reflexivity.
Qed.

(** Every verb but [get] is turned down before anything goes out. *)
Lemma call_api_crm_other_run (call_method api_call : str)
    (parameters : option (pydict pyval)) (return_type : str) (w : world) :
  call_method <> "get" ->
  exists msg,
    _call_api_crm call_method api_call parameters return_type w
    = (Raise (APIException msg), w).
Proof.
  intros Hm. unfold _call_api_crm.
  destruct (negb (str_in call_method ["delete"; "get"; "patch"; "post"])).
  - eexists. reflexivity.
  - unfold bind. rewrite build_url_crm_run. unfold attr.
    apply String.eqb_neq in Hm. rewrite Hm.
    eexists. reflexivity.
Qed.

Lemma version_get_run (w : world) :
  version_get w =
  (match net (wire w) (crm_request (client w) "version" None) with
   | Failed e => Raise e
   | Replied r =>
       match json_body r with
       | Some body => getitem body "version"
       | None => Raise JSONDecodeError
       end
   end,
   sent w (crm_request (client w) "version" None)).
Proof.
  unfold version_get, bind. rewrite call_api_crm_get_run.
  destruct (net _ _) as [e|r]; [reflexivity|].
  unfold crm_outcome. change (String.eqb "json" "json") with true. cbv iota.
  destruct (json_body r); reflexivity.
Qed.

Lemma nms_wrapper_run (api_call : str) (parameters : option (pydict pyval))
    (w : world) :
  (result <- _call_api_nms "get" api_call parameters "json" ;; ret result) w
  = _call_api_nms "get" api_call parameters "json" w.
Proof.
  unfold bind, ret.
  destruct (_call_api_nms "get" api_call parameters "json" w) as [[v|e] w'];
    reflexivity.
Qed.

Lemma perform_run (k : call) (w : world) :
  perform k w =
  (match net (wire w) (request_of (client w) k) with
   | Failed e => Raise e
   | Replied r => call_outcome k r
   end,
   sent w (request_of (client w) k)).
Proof.
  destruct k; cbn [perform request_of call_outcome].
  - apply version_get_run.
  - unfold device_list. cbv zeta. rewrite nms_wrapper_run. apply call_api_nms_run.
  - unfold get_device_by_mac. rewrite nms_wrapper_run. apply call_api_nms_run.
  - unfold get_device_creds. rewrite nms_wrapper_run. apply call_api_nms_run.
  - unfold get_gateways. rewrite nms_wrapper_run. apply call_api_nms_run.
Qed.

Lemma perform_client (k : call) (w : world) :
  client (snd (perform k w)) = client w.
Proof. now rewrite perform_run. Qed.

Lemma perform_all_client (cs : list call) (w : world) :
  client (perform_all cs w) = client w.
Proof.
  revert w. induction cs as [|k cs IH]; intros w; cbn [perform_all].
  - reflexivity.
  - now rewrite IH, perform_client.
Qed.

(** ** Dictionaries: copying the keyword arguments *)

Lemma dict_set_fresh {V} (d : pydict V) (k : str) (v : V) :
  ~ In k (dict_keys d) -> dict_set d k v = (d ++ [(k, v)])%list.
Proof.
  induction d as [|[k' v'] d IH]; cbn; intros Hk; [reflexivity|].
  destruct (String.eqb_spec k' k) as [->|Hne].
  - exfalso. apply Hk. now left.
  - rewrite IH; [reflexivity|]. intros Hin. apply Hk. now right.
Qed.

Lemma copy_items {V} (kwargs acc : pydict V) :
  dict_wf (acc ++ kwargs)%list ->
  fold_left (fun params kv => dict_set params (fst kv) (snd kv)) kwargs acc
  = (acc ++ kwargs)%list.
Proof.
  revert acc. induction kwargs as [|[k v] kwargs IH]; intros acc Hwf; cbn.
  - now rewrite app_nil_r.
  - assert (Hfresh : ~ In k (dict_keys acc)).
    { unfold dict_wf, dict_keys in *. rewrite map_app in Hwf. cbn in Hwf.
      apply NoDup_remove_2 in Hwf. intros Hin. apply Hwf.
      apply in_or_app. now left. }
    rewrite (dict_set_fresh acc k v Hfresh).
    rewrite IH.
    + now rewrite <- app_assoc.
    + now rewrite <- app_assoc.
Qed.

(** ** [quote_plus] byte by byte *)

Import urllib_parse.

Ltac each_byte c :=
  destruct c as [[] [] [] [] [] [] [] []]; vm_compute; reflexivity.

Lemma quote_byte_plain (c : ascii) :
  Ascii.eqb c " " = false -> quote_byte "" c = form_encode_byte c.
Proof.
  intros Hc. unfold quote_byte, form_encode_byte. rewrite Hc.
  cbn [mem_ascii]. now rewrite orb_false_r.
Qed.

Lemma quote_byte_spaced (c : ascii) :
  replace_char " " "+" (quote_byte " " c) = form_encode_byte c.
Proof. each_byte c. Qed.

Lemma form_encode_byte_no_colon (c : ascii) :
  mem_ascii ":" (form_encode_byte c) = false.
Proof. each_byte c. Qed.

Lemma replace_char_app (a b : ascii) (x y : str) :
  replace_char a b (x ++ y) = replace_char a b x ++ replace_char a b y.
Proof. induction x as [|c x IH]; cbn; [reflexivity | now rewrite IH]. Qed.

Lemma mem_ascii_app (c : ascii) (x y : str) :
  mem_ascii c (x ++ y) = mem_ascii c x || mem_ascii c y.
Proof.
  induction x as [|d x IH]; cbn [mem_ascii append]; [reflexivity|].
  now rewrite IH, orb_assoc.
Qed.

(** The shortcut of [quote_from_bytes] returns what the quoter would. *)
Lemma all_safe_quote_each (safe bs : str) :
  all_safe safe bs = true -> quote_each safe bs = bs.
Proof.
  induction bs as [|c bs IH]; cbn [all_safe quote_each]; [reflexivity|].
  intros H. apply andb_true_iff in H as [Hc Hbs].
  unfold quote_byte. rewrite Hc. cbn [append]. now rewrite IH.
Qed.

Lemma quote_is_quote_each (s safe : str) : quote s safe = quote_each safe s.
Proof.
  destruct s as [|c s]; [reflexivity|].
  unfold quote, quote_from_bytes.
  destruct (all_safe safe (String c s)) eqn:Hsafe; [|reflexivity].
  symmetry. now apply all_safe_quote_each.
Qed.

Lemma quote_each_plain (s : str) :
  mem_ascii " " s = false -> quote_each "" s = form_encode s.
Proof.
  induction s as [|c s IH]; cbn [mem_ascii quote_each form_encode];
    [reflexivity|].
  intros H. apply orb_false_iff in H as [Hc Hs].
  rewrite Ascii.eqb_sym in Hc.
  now rewrite (quote_byte_plain c Hc), IH.
Qed.

Lemma quote_each_spaced (s : str) :
  replace_char " " "+" (quote_each " " s) = form_encode s.
Proof.
  induction s as [|c s IH]; cbn [quote_each form_encode]; [reflexivity|].
  now rewrite replace_char_app, quote_byte_spaced, IH.
Qed.

(** [quote_plus] is the form encoding of each byte in turn. *)
Lemma quote_plus_form_encode (s : str) : quote_plus s = form_encode s.
Proof.
  unfold quote_plus. rewrite !quote_is_quote_each.
  destruct (mem_ascii " " s) eqn:Hsp; cbn [negb].
  - apply quote_each_spaced.
  - now apply quote_each_plain.
Qed.

Lemma form_encode_app (a b : str) :
  form_encode (a ++ b) = form_encode a ++ form_encode b.
Proof.
  induction a as [|c a IH]; cbn [form_encode append]; [reflexivity|].
  now rewrite IH, app_assoc_str.
Qed.

Lemma form_encode_no_colon (s : str) : mem_ascii ":" (form_encode s) = false.
Proof.
  induction s as [|c s IH]; cbn [form_encode]; [reflexivity|].
  now rewrite mem_ascii_app, form_encode_byte_no_colon, IH.
Qed.

(** ** The claims *)

(** C1, on the code: when the reply to an NMS operation ([device_list],
    [get_device_by_mac], [get_device_creds], [get_gateways]) has a status
    other than 200, the operation raises a [RuntimeError], and its message
    is the fixed text of the source's string literal, braces included: it
    is the same for every status code and does not show the one received. *)
Theorem C1_nms_error_message_is_fixed (k : call) (w : world) (r : response) :
  is_nms k = true ->
  net (wire w) (request_of (client w) k) = Replied r ->
  status_code r <> 200%Z ->
  perform k w =
  (Raise (RuntimeError "Got error '{r.status_code}' while executing request"),
   sent w (request_of (client w) k)).
Proof.
  intros Hk Hnet Hcode. rewrite perform_run, Hnet.
  destruct k; try discriminate Hk; cbn [call_outcome]; unfold nms_outcome;
    apply Z.eqb_neq in Hcode; now rewrite Hcode.
Qed.

(** C2, on the code: for a call method other than [get], the CRM helper
    raises an [APIException] and leaves the wire as it was, while the NMS
    helper never looks at the call method: it behaves as for [get] and
    puts its GET request on the wire. *)
Theorem C2_nms_helper_ignores_call_method (call_method api_call : str)
    (parameters : option (pydict pyval)) (return_type : str) (w : world) :
  call_method <> "get" ->
  (exists msg,
      _call_api_crm call_method api_call parameters return_type w
      = (Raise (APIException msg), w))
  /\ _call_api_nms call_method api_call parameters return_type w
     = _call_api_nms "get" api_call parameters return_type w
  /\ wire (snd (_call_api_nms call_method api_call parameters return_type w))
     = (wire w ++ [nms_request (client w) api_call parameters])%list.
Proof.
  intros Hm. split; [|split].
  - now apply call_api_crm_other_run.
  - now rewrite !call_api_nms_run.
  - now rewrite call_api_nms_run.
Qed.


(** C4: [device_list] sends the keyword arguments it was given as the
    query parameters of its GET request to
    [{protocol}://{host}/nms/api/{nmsVersion}/devices]: the same keys with
    the same values in the same order, nothing added, dropped or renamed. *)
Theorem C4_device_list_forwards_filters (kwargs : pydict pyval) (w : world) :
  dict_wf kwargs ->
  exists rq,
    wire (snd (device_list kwargs w)) = (wire w ++ [rq])%list
    /\ req_method rq = "GET"
    /\ req_url rq
       = protocol_of (_secure (client w)) ++ "://" ++ _server (client w)
           ++ "/nms/api/" ++ _api_version_nms (client w) ++ "/devices"
    /\ req_params rq = Some kwargs.
Proof.
  intros Hwf. pose proof (perform_run (DeviceList kwargs) w) as Hrun.
  cbn [perform request_of] in Hrun. rewrite Hrun.
  rewrite (copy_items kwargs []) by exact Hwf.
  eexists. repeat split.
Qed.

(** C5: [get_device_by_mac] requests the NMS path
    [devices/mac/] followed by [quote_plus(mac)].  The quoted MAC is the
    form encoding of the MAC byte by byte, it holds no colon, and every
    colon of the MAC stands in it as [%3A]. *)
Theorem C5_mac_is_url_encoded (mac before after : str) (w : world) :
  snd (get_device_by_mac mac w)
  = sent w (nms_request (client w) ("devices/mac/" ++ quote_plus mac) None)
  /\ req_url (nms_request (client w) ("devices/mac/" ++ quote_plus mac) None)
     = protocol_of (_secure (client w)) ++ "://" ++ _server (client w)
         ++ "/nms/api/" ++ _api_version_nms (client w) ++ "/devices/mac/"
         ++ quote_plus mac
  /\ quote_plus mac = form_encode mac
  /\ mem_ascii ":" (quote_plus mac) = false
  /\ quote_plus (before ++ ":" ++ after)
     = quote_plus before ++ "%3A" ++ quote_plus after.
Proof.
  pose proof (perform_run (GetDeviceByMac mac) w) as Hrun.
  cbn [perform request_of] in Hrun. rewrite Hrun. cbn [snd].
  repeat split.
  - apply quote_plus_form_encode.
  - rewrite quote_plus_form_encode. apply form_encode_no_colon.
  - rewrite !quote_plus_form_encode, form_encode_app. reflexivity.
Qed.

(** C6, as amended: a CRM GET with the JSON return type whose reply has a
    body that decodes as JSON returns the decoded body whatever the reply's
    status code is; the CRM helper does not look at the status code. *)
Theorem C6_crm_returns_body_at_any_status (api_call : str)
    (parameters : option (pydict pyval)) (w : world)
    (code : Z) (body raw_stream : str) (v : pyval) :
  net (wire w) (crm_request (client w) api_call parameters)
  = Replied {| status_code := code; text := body;
               json_body := Some v; raw := raw_stream |} ->
  _call_api_crm "get" api_call parameters "json" w
  = (Ok v, sent w (crm_request (client w) api_call parameters)).
Proof. intros Hnet. now rewrite call_api_crm_get_run, Hnet. Qed.

(** C7: for every sub-path and every configuration, the CRM helper builds
    [{protocol}://{host}/crm/api/{crmVersion}/{path}] and sends the key in
    the [X-Auth-App-Key] header; the NMS helper builds
    [{protocol}://{host}/nms/api/{nmsVersion}/{path}] and sends the key in
    the [x-auth-token] header with [accept: application/json]; the protocol
    is [https] when the security flag is set and [http] otherwise. *)
Theorem C7_endpoints_and_headers (c : UispApi) (t : list request)
    (sub_path call_method return_type : str)
    (parameters : option (pydict pyval)) :
  _build_url_crm sub_path {| client := c; wire := t |}
  = (Ok ((if _secure c then "https" else "http") ++ "://" ++ _server c
           ++ "/crm/api/" ++ _api_version_crm c ++ "/" ++ sub_path),
     {| client := c; wire := t |})
  /\ _build_url_nms sub_path {| client := c; wire := t |}
     = (Ok ((if _secure c then "https" else "http") ++ "://" ++ _server c
              ++ "/nms/api/" ++ _api_version_nms c ++ "/" ++ sub_path),
        {| client := c; wire := t |})
  /\ (exists rq,
        wire (snd (_call_api_crm "get" sub_path parameters return_type
                     {| client := c; wire := t |}))
        = (t ++ [rq])%list
        /\ req_url rq
           = (if _secure c then "https" else "http") ++ "://" ++ _server c
               ++ "/crm/api/" ++ _api_version_crm c ++ "/" ++ sub_path
        /\ dict_get (req_headers rq) "X-Auth-App-Key" = Some (_app_key c))
  /\ (exists rq,
        wire (snd (_call_api_nms call_method sub_path parameters return_type
                     {| client := c; wire := t |}))
        = (t ++ [rq])%list
        /\ req_url rq
           = (if _secure c then "https" else "http") ++ "://" ++ _server c
               ++ "/nms/api/" ++ _api_version_nms c ++ "/" ++ sub_path
        /\ dict_get (req_headers rq) "x-auth-token" = Some (_app_key c)
        /\ dict_get (req_headers rq) "accept" = Some "application/json").
Proof.
  split; [apply build_url_crm_run|]. split; [apply build_url_nms_run|].
  split.
  - rewrite call_api_crm_get_run. eexists. repeat split.
  - rewrite call_api_nms_run. eexists. repeat split.
Qed.

(** C8: no operation of the client writes to the configuration: after any
    sequence of calls to [version_get], [device_list], [get_device_by_mac],
    [get_device_creds] and [get_gateways], whatever they return or raise,
    the client object is the one the constructor built and its five fields
    hold the values given at construction (or the defaults of the
    arguments left out). *)
Theorem C8_configuration_is_read_only (uisp_server app_key : str)
    (crm_version nms_version : option str) (secure : option bool)
    (cs : list call) :
  client (perform_all cs
            (new_world (__init__ uisp_server app_key
                                 crm_version nms_version secure)))
  = __init__ uisp_server app_key crm_version nms_version secure
  /\ _server (client (perform_all cs
                        (new_world (__init__ uisp_server app_key
                                             crm_version nms_version secure))))
     = uisp_server
  /\ _app_key (client (perform_all cs
                         (new_world (__init__ uisp_server app_key
                                              crm_version nms_version secure))))
     = app_key
  /\ _api_version_crm
       (client (perform_all cs
                  (new_world (__init__ uisp_server app_key
                                       crm_version nms_version secure))))
     = match crm_version with Some v => v | None => "v1.0" end
  /\ _api_version_nms
       (client (perform_all cs
                  (new_world (__init__ uisp_server app_key
                                       crm_version nms_version secure))))
     = match nms_version with Some v => v | None => "v2.1" end
  /\ _secure (client (perform_all cs
                        (new_world (__init__ uisp_server app_key
                                             crm_version nms_version secure))))
     = match secure with Some b => b | None => true end.
Proof. rewrite perform_all_client. repeat split. Qed.

(** C9: [get_device_creds] puts one GET request for the NMS path
    [vault/{deviceId}/credentials] on the wire and [get_gateways] one for
    the NMS path [gateways], whatever comes back; each, on its own reply
    with status 200, returns the decoded JSON document of that reply as it
    is. *)
Theorem C9_creds_and_gateways (device_id : str) (w : world) :
  (forall (r : response) (v : pyval),
      net (wire w)
          (nms_request (client w)
             ("vault/" ++ device_id ++ "/credentials") None)
      = Replied r ->
      status_code r = 200%Z -> json_body r = Some v ->
      get_device_creds device_id w
      = (Ok v,
         sent w (nms_request (client w)
                   ("vault/" ++ device_id ++ "/credentials") None)))
  /\ (forall (r : response) (v : pyval),
        net (wire w) (nms_request (client w) "gateways" None) = Replied r ->
        status_code r = 200%Z -> json_body r = Some v ->
        get_gateways w
        = (Ok v, sent w (nms_request (client w) "gateways" None)))
  /\ snd (get_device_creds device_id w)
     = sent w (nms_request (client w)
                 ("vault/" ++ device_id ++ "/credentials") None)
  /\ snd (get_gateways w) = sent w (nms_request (client w) "gateways" None)
  /\ req_method (nms_request (client w)
                   ("vault/" ++ device_id ++ "/credentials") None) = "GET"
  /\ req_url (nms_request (client w)
                ("vault/" ++ device_id ++ "/credentials") None)
     = protocol_of (_secure (client w)) ++ "://" ++ _server (client w)
         ++ "/nms/api/" ++ _api_version_nms (client w)
         ++ "/vault/" ++ device_id ++ "/credentials"
  /\ req_method (nms_request (client w) "gateways" None) = "GET"
  /\ req_url (nms_request (client w) "gateways" None)
     = protocol_of (_secure (client w)) ++ "://" ++ _server (client w)
         ++ "/nms/api/" ++ _api_version_nms (client w) ++ "/gateways".
Proof.
  pose proof (perform_run (GetDeviceCreds device_id) w) as Hcreds.
  pose proof (perform_run GetGateways w) as Hgw.
  cbn [perform request_of call_outcome] in Hcreds, Hgw.
  split; [|split; [|split; [|split]]].
  - intros r v Hn Hc Hb. rewrite Hcreds, Hn. unfold nms_outcome.
    now rewrite Hc, Hb.
  - intros r v Hn Hc Hb. rewrite Hgw, Hn. unfold nms_outcome.
    now rewrite Hc, Hb.
  - now rewrite Hcreds.
  - now rewrite Hgw.
  - repeat split.
Qed.


(** ** More about the helpers and the public calls *)

Lemma app_cancel_l (a x y : str) : a ++ x = a ++ y -> x = y.
Proof.
  induction a as [|c a IH]; cbn [append]; intros H; [exact H|].
  injection H as H. now apply IH.
Qed.

Lemma str_forall_app (p : ascii -> bool) (x y : str) :
  str_forall p (x ++ y) = str_forall p x && str_forall p y.
Proof.
  induction x as [|c x IH]; cbn [str_forall append]; [reflexivity|].
  now rewrite IH, andb_assoc.
Qed.

Lemma str_forall_mem (p : ascii -> bool) (s : str) (c : ascii) :
  str_forall p s = true -> p c = false -> mem_ascii c s = false.
Proof.
  induction s as [|d s IH]; cbn [str_forall mem_ascii]; [reflexivity|].
  intros H Hc. apply andb_true_iff in H as [Hd Hs].
  rewrite (IH Hs Hc), orb_false_r.
  destruct (Ascii.eqb_spec c d) as [->|]; [congruence | reflexivity].
Qed.

Lemma form_encode_byte_url (c : ascii) :
  str_forall url_char (form_encode_byte c) = true.
Proof. each_byte c. Qed.

Lemma form_encode_url (s : str) : str_forall url_char (form_encode s) = true.
Proof.
  induction s as [|c s IH]; cbn [form_encode]; [reflexivity|].
  now rewrite str_forall_app, form_encode_byte_url, IH.
Qed.

Lemma form_decode_byte (c : ascii) (rest : str) :
  form_decode (form_encode_byte c ++ rest) = String c (form_decode rest).
Proof. destruct c as [[] [] [] [] [] [] [] []]; reflexivity. Qed.

Lemma form_decode_encode (s : str) : form_decode (form_encode s) = s.
Proof.
  induction s as [|c s IH]; cbn [form_encode]; [reflexivity|].
  now rewrite form_decode_byte, IH.
Qed.

Lemma quote_plus_inj (a b : str) : quote_plus a = quote_plus b -> a = b.
Proof.
  rewrite !quote_plus_form_encode. intros H.
  rewrite <- (form_decode_encode a), <- (form_decode_encode b). now rewrite H.
Qed.

Lemma always_safe_not_space (c : ascii) :
  always_safe c = true -> Ascii.eqb c " " = false.
Proof.
  destruct c as [[] [] [] [] [] [] [] []]; vm_compute; intros H;
    (reflexivity || discriminate H).
Qed.

Lemma form_encode_safe (s : str) : all_safe "" s = true -> form_encode s = s.
Proof.
  induction s as [|c s IH]; cbn [all_safe form_encode mem_ascii];
    [reflexivity|].
  rewrite orb_false_r. intros H. apply andb_true_iff in H as [Hc Hs].
  unfold form_encode_byte. rewrite (always_safe_not_space c Hc), Hc.
  cbn [append]. now rewrite IH.
Qed.

(** X1: When the transport fails, every public call raises the transport's
    exception as it is, with the request on the wire: nothing is caught,
    retried or wrapped. *)
Theorem transport_failure_propagates (k : call) (w : world) (e : exn) :
  net (wire w) (request_of (client w) k) = Failed e ->
  perform k w = (Raise e, sent w (request_of (client w) k)).
Proof. intros Hnet. now rewrite perform_run, Hnet. Qed.

(** X2: A sequence of public calls puts exactly one request per call on the
    wire, in the order of the calls and after what was there, whatever the
    calls return or raise. *)
Theorem wire_records_each_call_once (cs : list call) (w : world) :
  wire (perform_all cs w)
  = (wire w ++ map (request_of (client w)) cs)%list.
Proof.
  revert w. induction cs as [|k cs IH]; intros w; cbn [perform_all map].
  - now rewrite app_nil_r.
  - rewrite IH, perform_client, perform_run. cbn [snd sent wire].
    now rewrite <- app_assoc.
Qed.

(** X3: The CRM helper turns down every call method but [get] without sending
    anything: [delete], [patch] and [post] with the fixed text
    [Unimplemented call method: {call_method}] (the braces are not filled
    in), any other method with [Unknown call method: ] followed by the
    method. *)
Theorem crm_rejects_other_methods (call_method api_call : str)
    (parameters : option (pydict pyval)) (return_type : str) (w : world) :
  call_method <> "get" ->
  _call_api_crm call_method api_call parameters return_type w
  = (Raise (APIException
              (if str_in call_method ["delete"; "patch"; "post"]
               then "Unimplemented call method: {call_method}"
               else "Unknown call method: " ++ call_method)),
     w).
Proof.
  intros Hm. apply String.eqb_neq in Hm.
  unfold _call_api_crm. cbn [str_in]. rewrite Hm.
  destruct (String.eqb call_method "delete"),
           (String.eqb call_method "patch"),
           (String.eqb call_method "post");
    cbn [orb negb]; try reflexivity;
    unfold bind; rewrite build_url_crm_run; unfold attr; rewrite Hm;
    reflexivity.
Qed.

(** X4: A CRM GET with the JSON return type raises a decoding error when the
    body of the reply is not a JSON document, whatever the status code. *)
Theorem crm_undecodable_body_raises (api_call : str)
    (parameters : option (pydict pyval)) (w : world)
    (code : Z) (body raw_stream : str) :
  net (wire w) (crm_request (client w) api_call parameters)
  = Replied {| status_code := code; text := body;
               json_body := None; raw := raw_stream |} ->
  _call_api_crm "get" api_call parameters "json" w
  = (Raise JSONDecodeError,
     sent w (crm_request (client w) api_call parameters)).
Proof. intros Hnet. now rewrite call_api_crm_get_run, Hnet. Qed.

(** X5: The NMS helper checks the status before it decodes: a reply with status
    200 whose body is not a JSON document raises a decoding error, while a
    reply with another status raises the [RuntimeError] even when its body
    is a JSON document. *)
Theorem nms_status_checked_before_decoding (call_method api_call : str)
    (parameters : option (pydict pyval)) (w : world) (r : response) :
  net (wire w) (nms_request (client w) api_call parameters) = Replied r ->
  (status_code r = 200%Z -> json_body r = None ->
   fst (_call_api_nms call_method api_call parameters "json" w)
   = Raise JSONDecodeError)
  /\ (status_code r <> 200%Z ->
      fst (_call_api_nms call_method api_call parameters "json" w)
      = Raise (RuntimeError
                 "Got error '{r.status_code}' while executing request")).
Proof.
  intros Hnet. rewrite call_api_nms_run, Hnet. cbn [fst].
  unfold nms_outcome. split.
  - intros Hc Hb. now rewrite Hc, Hb.
  - intros Hc. apply Z.eqb_neq in Hc. now rewrite Hc.
Qed.

(** X6: With a return type other than [json], the NMS helper hands back the raw
    stream of a reply with status 200 (the CRM helper returns [None]
    there). *)
Theorem nms_other_return_type_gives_raw (call_method api_call return_type : str)
    (parameters : option (pydict pyval)) (w : world) (r : response) :
  return_type <> "json" ->
  net (wire w) (nms_request (client w) api_call parameters) = Replied r ->
  status_code r = 200%Z ->
  _call_api_nms call_method api_call parameters return_type w
  = (Ok (PRaw (raw r)), sent w (nms_request (client w) api_call parameters)).
Proof.
  intros Hrt Hnet Hc. rewrite call_api_nms_run, Hnet. unfold nms_outcome.
  apply String.eqb_neq in Hrt. now rewrite Hc, Hrt.
Qed.

(** X7: What [version_get] raises on a document without a [version] field: a
    [KeyError] for the key [version] when the document is an object, a
    [TypeError] when it is anything else. *)
Theorem version_get_missing_field (w : world) (r : response) (body : pyval) :
  net (wire w) (crm_request (client w) "version" None) = Replied r ->
  json_body r = Some body ->
  json_field body "version" = None ->
  fst (version_get w)
  = Raise (match body with
           | PDict _ => KeyError "version"
           | _ => TypeError
           end).
Proof.
  intros Hnet Hbody Hnone. rewrite version_get_run, Hnet, Hbody. cbn [fst].
  destruct body; cbn [getitem]; try reflexivity.
  cbn [json_field] in Hnone. now rewrite Hnone.
Qed.

(** X8: A client built from a host and a key alone uses HTTPS, version [v1.0]
    of the CRM API and version [v2.1] of the NMS API. *)
Theorem default_client_endpoints (uisp_server app_key sub_path : str)
    (t : list request) :
  fst (_build_url_crm sub_path
         {| client := __init__ uisp_server app_key None None None;
            wire := t |})
  = Ok ("https://" ++ uisp_server ++ "/crm/api/v1.0/" ++ sub_path)
  /\ fst (_build_url_nms sub_path
            {| client := __init__ uisp_server app_key None None None;
               wire := t |})
     = Ok ("https://" ++ uisp_server ++ "/nms/api/v2.1/" ++ sub_path).
Proof.
  rewrite build_url_crm_run, build_url_nms_run. split; reflexivity.
Qed.

(** X9: The NMS URL builder does no clean-up of slashes (the source only has a
    comment announcing one): a sub-path with a leading slash gives a double
    slash in the URL. *)
Theorem nms_url_keeps_double_slash (sub_path : str) (w : world) :
  _build_url_nms ("/" ++ sub_path) w
  = (Ok (protocol_of (_secure (client w)) ++ "://" ++ _server (client w)
           ++ "/nms/api/" ++ _api_version_nms (client w) ++ "//" ++ sub_path),
     w).
Proof. now rewrite build_url_nms_run. Qed.

(** X10: The MAC segment of the path [get_device_by_mac] requests is made of
    unreserved bytes, percent signs and plus signs only; it holds no slash,
    question mark, hash, ampersand or space, so the MAC cannot add a path
    segment, a query or a fragment to the URL. *)
Theorem quoted_mac_alphabet (mac : str) (w : world) :
  snd (get_device_by_mac mac w)
  = sent w (nms_request (client w) ("devices/mac/" ++ quote_plus mac) None)
  /\ str_forall url_char (quote_plus mac) = true
  /\ mem_ascii "/" (quote_plus mac) = false
  /\ mem_ascii "?" (quote_plus mac) = false
  /\ mem_ascii "#" (quote_plus mac) = false
  /\ mem_ascii "&" (quote_plus mac) = false
  /\ mem_ascii " " (quote_plus mac) = false.
Proof.
  split.
  { pose proof (perform_run (GetDeviceByMac mac) w) as Hrun.
    cbn [perform request_of] in Hrun. now rewrite Hrun. }
  rewrite quote_plus_form_encode.
  pose proof (form_encode_url mac) as H.
  repeat split; [exact H | | | | | ];
    apply (str_forall_mem url_char); (exact H || reflexivity).
Qed.

(** X11: Different MAC addresses are looked up under different URLs. *)
Theorem distinct_macs_distinct_requests (mac1 mac2 : str) (w : world) :
  mac1 <> mac2 ->
  map req_url (wire (snd (get_device_by_mac mac1 w)))
  <> map req_url (wire (snd (get_device_by_mac mac2 w))).
Proof.
  intros Hne Heq. apply Hne.
  pose proof (perform_run (GetDeviceByMac mac1) w) as H1.
  pose proof (perform_run (GetDeviceByMac mac2) w) as H2.
  cbn [perform request_of] in H1, H2. rewrite H1, H2 in Heq.
  cbn [snd sent wire] in Heq. rewrite !map_app in Heq.
  apply app_inv_head in Heq. cbn [map nms_request req_url] in Heq.
  injection Heq as Heq. unfold nms_url in Heq.
  apply app_cancel_l in Heq. apply (app_cancel_l "://") in Heq.
  apply app_cancel_l in Heq. apply (app_cancel_l "/nms/api/") in Heq.
  apply app_cancel_l in Heq. apply (app_cancel_l "/") in Heq.
  apply (app_cancel_l "devices/mac/") in Heq.
  now apply quote_plus_inj.
Qed.

(** X12: A MAC made of unreserved bytes only (letters, digits and [_.-~]) goes
    into the path as it is. *)
Theorem safe_mac_sent_unchanged (mac : str) (w : world) :
  all_safe "" mac = true ->
  wire (snd (get_device_by_mac mac w))
  = (wire w
     ++ [nms_request (client w) ("devices/mac/" ++ mac)%string None])%list.
Proof.
  intros Hsafe. pose proof (perform_run (GetDeviceByMac mac) w) as Hrun.
  cbn [perform request_of] in Hrun. rewrite Hrun.
  now rewrite quote_plus_form_encode, (form_encode_safe mac Hsafe).
Qed.

(** X13: The key goes nowhere but into the headers: two clients that differ in
    the key only send, for the same call, requests with the same method,
    the same URL and the same query parameters. *)
Theorem key_only_in_headers (k : call) (c1 c2 : UispApi) (t : list request) :
  _secure c1 = _secure c2 ->
  _server c1 = _server c2 ->
  _api_version_crm c1 = _api_version_crm c2 ->
  _api_version_nms c1 = _api_version_nms c2 ->
  map (fun rq => (req_method rq, req_url rq, req_params rq))
      (wire (snd (perform k {| client := c1; wire := t |})))
  = map (fun rq => (req_method rq, req_url rq, req_params rq))
        (wire (snd (perform k {| client := c2; wire := t |}))).
Proof.
  intros Hs Hh Hc Hn. rewrite !perform_run. cbn [snd sent wire client].
  rewrite !map_app. f_equal.
  destruct k; cbn [request_of map crm_request nms_request
                   req_method req_url req_params];
    unfold crm_url, nms_url; now rewrite Hs, Hh, ?Hc, ?Hn.
Qed.

(** X14: The public calls always use [get]: once a reply is in, none of them
    raises an [APIException]. *)
Theorem public_calls_never_raise_APIException (k : call) (w : world)
    (r : response) (msg : str) :
  net (wire w) (request_of (client w) k) = Replied r ->
  fst (perform k w) <> Raise (APIException msg).
Proof.
  intros Hnet. rewrite perform_run, Hnet. cbn [fst].
  destruct k; cbn [call_outcome]; unfold nms_outcome;
    try (destruct (Z.eqb (status_code r) 200); cbn [String.eqb];
         destruct (json_body r); discriminate).
  destruct (json_body r) as [body|]; [|discriminate].
  destruct body; cbn [getitem]; try discriminate.
  destruct (dict_get items "version"); discriminate.
Qed.

End Client.

(** ** The theorems at work on sample servers *)

(** Replies with status 404 and 503 raise one and the same error. *)
Example nms_404_and_503_raise_the_same :
  fst (get_gateways (always (json_reply 404 "Not Found" PNone)) (new_world demo))
  = fst (get_gateways (always (json_reply 503 "Unavailable" PNone))
           (new_world demo)).
Proof. vm_compute. reflexivity. Qed.

(** The NMS helper called with [post] sends a GET and returns its reply. *)
Example nms_post_goes_out :
  _call_api_nms (always (json_reply 200 "[]" device_doc))
                "post" "devices" None "json" (new_world demo)
  = (Ok device_doc,
     {| client := demo;
        wire := [ {| req_method := "GET";
                     req_url := "https://uisp.example.net/nms/api/v2.1/devices";
                     req_headers := [("accept", "application/json");
                                     ("x-auth-token", "k3y")];
                     req_params := None |} ] |}).
Proof. vm_compute. reflexivity. Qed.

Lemma C1_nms_error_message_is_fixed_witness :
  perform (always (json_reply 404 "Not Found" PNone)) GetGateways
          (new_world demo)
  = (Raise (RuntimeError "Got error '{r.status_code}' while executing request"),
     sent (new_world demo) (request_of demo GetGateways)).
Proof.
  apply (C1_nms_error_message_is_fixed
           (always (json_reply 404 "Not Found" PNone)) GetGateways
           (new_world demo) (json_reply 404 "Not Found" PNone)).
  - reflexivity.
  - reflexivity.
  - simpl. lia.
Defined.

Lemma C2_nms_helper_ignores_call_method_witness :
  (exists msg,
      _call_api_crm (always (json_reply 200 "[]" device_doc))
                    "post" "devices" None "json" (new_world demo)
      = (Raise (APIException msg), new_world demo))
  /\ _call_api_nms (always (json_reply 200 "[]" device_doc))
                   "post" "devices" None "json" (new_world demo)
     = _call_api_nms (always (json_reply 200 "[]" device_doc))
                     "get" "devices" None "json" (new_world demo)
  /\ wire (snd (_call_api_nms (always (json_reply 200 "[]" device_doc))
                              "post" "devices" None "json" (new_world demo)))
     = ([] ++ [nms_request demo "devices" None])%list.
Proof.
  apply (C2_nms_helper_ignores_call_method
           (always (json_reply 200 "[]" device_doc))
           "post" "devices" None "json" (new_world demo)).
  apply String.eqb_neq. reflexivity.
Defined.


Lemma C4_device_list_forwards_filters_witness :
  exists rq,
    wire (snd (device_list (always (json_reply 200 "[]" device_doc))
                 [("role", PStr "ap"); ("type", PStr "airMax")]
                 (new_world demo_plain)))
    = ([] ++ [rq])%list
    /\ req_method rq = "GET"
    /\ req_url rq = "http://10.0.0.2:8080/nms/api/v2.2/devices"
    /\ req_params rq = Some [("role", PStr "ap"); ("type", PStr "airMax")].
Proof.
  apply (C4_device_list_forwards_filters
           (always (json_reply 200 "[]" device_doc))
           [("role", PStr "ap"); ("type", PStr "airMax")]
           (new_world demo_plain)).
  unfold dict_wf. simpl.
  repeat constructor; simpl; intuition discriminate.
Defined.

Lemma C6_crm_returns_body_at_any_status_witness :
  _call_api_crm (always (json_reply 500 "{}" version_doc))
                "get" "version" None "json" (new_world demo)
  = (Ok version_doc, sent (new_world demo) (crm_request demo "version" None)).
Proof.
  apply (C6_crm_returns_body_at_any_status
           (always (json_reply 500 "{}" version_doc))
           "version" None (new_world demo) 500%Z "{}" "{}" version_doc).
  reflexivity.
Defined.

Lemma C9_creds_and_gateways_witness :
  get_device_creds
    (only_at "https://uisp.example.net/nms/api/v2.1/vault/f7ac/credentials"
             (json_reply 200 "{}" version_doc))
    "f7ac" (new_world demo)
  = (Ok version_doc,
     sent (new_world demo) (nms_request demo "vault/f7ac/credentials" None))
  /\ get_gateways
       (only_at "https://uisp.example.net/nms/api/v2.1/gateways"
                (json_reply 200 "[]" device_doc))
       (new_world demo)
     = (Ok device_doc,
        sent (new_world demo) (nms_request demo "gateways" None)).
Proof.
  split.
  - apply (proj1 (C9_creds_and_gateways
                    (only_at
                       "https://uisp.example.net/nms/api/v2.1/vault/f7ac/credentials"
                       (json_reply 200 "{}" version_doc))
                    "f7ac" (new_world demo))
                 (json_reply 200 "{}" version_doc) version_doc);
      reflexivity.
  - apply (proj1 (proj2 (C9_creds_and_gateways
                           (only_at
                              "https://uisp.example.net/nms/api/v2.1/gateways"
                              (json_reply 200 "[]" device_doc))
                           "f7ac" (new_world demo)))
                 (json_reply 200 "[]" device_doc) device_doc);
      reflexivity.
Defined.

(** C6, as first worded, fails: a CRM GET whose reply has status 502 and an
    HTML body raises the decoding error, and a CRM GET with the return type
    [raw] returns [None] instead of the decoded body. *)
Lemma C6_counterexample :
  fst (_call_api_crm (always (html_reply 502 "<html>Bad Gateway</html>"))
                     "get" "version" None "json" (new_world demo))
  = Raise JSONDecodeError
  /\ (forall v : pyval,
        fst (_call_api_crm (always (html_reply 502 "<html>Bad Gateway</html>"))
                           "get" "version" None "json" (new_world demo))
        <> Ok v)
  /\ fst (_call_api_crm (always (json_reply 200 "{}" version_doc))
                        "get" "version" None "raw" (new_world demo))
     = Ok PNone.
Proof.
  split; [|split].
  - vm_compute. reflexivity.
  - intros v. vm_compute. discriminate.
  - vm_compute. reflexivity.
Qed.


Lemma transport_failure_propagates_witness :
  perform unreachable GetGateways (new_world demo)
  = (Raise (RequestException "ConnectionError"),
     sent (new_world demo) (request_of demo GetGateways)).
Proof.
  apply (transport_failure_propagates unreachable GetGateways
           (new_world demo) (RequestException "ConnectionError")).
  reflexivity.
Defined.

Lemma crm_rejects_other_methods_witness :
  _call_api_crm unreachable "put" "clients" None "json" (new_world demo)
  = (Raise (APIException "Unknown call method: put"), new_world demo)
  /\ _call_api_crm unreachable "delete" "clients" None "json" (new_world demo)
     = (Raise (APIException "Unimplemented call method: {call_method}"),
        new_world demo).
Proof.
  split.
  - apply (crm_rejects_other_methods unreachable "put" "clients" None "json"
             (new_world demo)).
    apply String.eqb_neq. reflexivity.
  - apply (crm_rejects_other_methods unreachable "delete" "clients" None
             "json" (new_world demo)).
    apply String.eqb_neq. reflexivity.
Defined.

Lemma crm_undecodable_body_raises_witness :
  _call_api_crm (always (html_reply 502 "<html>Bad Gateway</html>"))
                "get" "version" None "json" (new_world demo)
  = (Raise JSONDecodeError,
     sent (new_world demo) (crm_request demo "version" None)).
Proof.
  apply (crm_undecodable_body_raises
           (always (html_reply 502 "<html>Bad Gateway</html>"))
           "version" None (new_world demo) 502%Z
           "<html>Bad Gateway</html>" "<html>Bad Gateway</html>").
  reflexivity.
Defined.

Lemma nms_status_checked_before_decoding_witness :
  fst (_call_api_nms (always (html_reply 200 "<html></html>"))
                     "get" "gateways" None "json" (new_world demo))
  = Raise JSONDecodeError
  /\ fst (_call_api_nms (always (json_reply 404 "{}" version_doc))
                        "get" "gateways" None "json" (new_world demo))
     = Raise (RuntimeError "Got error '{r.status_code}' while executing request").
Proof.
  split.
  - apply (proj1 (nms_status_checked_before_decoding
                    (always (html_reply 200 "<html></html>"))
                    "get" "gateways" None (new_world demo)
                    (html_reply 200 "<html></html>") eq_refl));
      reflexivity.
  - apply (proj2 (nms_status_checked_before_decoding
                    (always (json_reply 404 "{}" version_doc))
                    "get" "gateways" None (new_world demo)
                    (json_reply 404 "{}" version_doc) eq_refl)).
    simpl. lia.
Defined.

Lemma nms_other_return_type_gives_raw_witness :
  _call_api_nms (always (json_reply 200 "stream" PNone))
                "get" "gateways" None "raw" (new_world demo)
  = (Ok (PRaw "stream"),
     sent (new_world demo) (nms_request demo "gateways" None)).
Proof.
  apply (nms_other_return_type_gives_raw
           (always (json_reply 200 "stream" PNone))
           "get" "gateways" "raw" None (new_world demo)
           (json_reply 200 "stream" PNone)).
  - apply String.eqb_neq. reflexivity.
  - reflexivity.
  - reflexivity.
Defined.

Lemma version_get_missing_field_witness :
  fst (version_get
         (always (json_reply 401 "{}" (PDict [("message", PStr "Unauthorized")])))
         (new_world demo))
  = Raise (KeyError "version")
  /\ fst (version_get (always (json_reply 200 "[]" device_doc))
            (new_world demo))
     = Raise TypeError.
Proof.
  split.
  - apply (version_get_missing_field
             (always (json_reply 401 "{}"
                        (PDict [("message", PStr "Unauthorized")])))
             (new_world demo)
             (json_reply 401 "{}" (PDict [("message", PStr "Unauthorized")]))
             (PDict [("message", PStr "Unauthorized")]));
      reflexivity.
  - apply (version_get_missing_field
             (always (json_reply 200 "[]" device_doc))
             (new_world demo) (json_reply 200 "[]" device_doc) device_doc);
      reflexivity.
Defined.

Lemma distinct_macs_distinct_requests_witness :
  map req_url
      (wire (snd (get_device_by_mac unreachable "aa:bb" (new_world demo))))
  <> map req_url
         (wire (snd (get_device_by_mac unreachable "aa bb" (new_world demo)))).
Proof.
  apply (distinct_macs_distinct_requests unreachable "aa:bb" "aa bb"
           (new_world demo)).
  apply String.eqb_neq. reflexivity.
Defined.

Lemma safe_mac_sent_unchanged_witness :
  wire (snd (get_device_by_mac unreachable "aabbccddeeff" (new_world demo)))
  = ([] ++ [nms_request demo "devices/mac/aabbccddeeff" None])%list.
Proof.
  apply (safe_mac_sent_unchanged unreachable "aabbccddeeff" (new_world demo)).
  reflexivity.
Defined.

Lemma key_only_in_headers_witness :
  map (fun rq => (req_method rq, req_url rq, req_params rq))
      (wire (snd (perform unreachable GetGateways
                    {| client := demo; wire := [] |})))
  = map (fun rq => (req_method rq, req_url rq, req_params rq))
        (wire (snd (perform unreachable GetGateways
                      {| client := __init__ "uisp.example.net" "0th3r"
                                            None None None;
                         wire := [] |}))).
Proof.
  apply (key_only_in_headers unreachable GetGateways demo
           (__init__ "uisp.example.net" "0th3r" None None None) []);
    reflexivity.
Defined.

Lemma public_calls_never_raise_APIException_witness :
  fst (perform (always (json_reply 404 "{}" version_doc)) GetGateways
               (new_world demo))
  <> Raise (APIException "Unknown call method: get").
Proof.
  apply (public_calls_never_raise_APIException
           (always (json_reply 404 "{}" version_doc)) GetGateways
           (new_world demo) (json_reply 404 "{}" version_doc)
           "Unknown call method: get").
  reflexivity.
Defined.
